(** * Mann-Whitney U analysis script: a shallow embedding

    The development follows [src/mann-whitney-u.py]: one procedure,
    [perform_mannwhitney_analysis], and one helper,
    [interpret_effect_size].  Python floats are IEEE binary64 numbers
    ([spec_float] at precision 53), pandas columns are lists of cells, a
    frame is a finite map from column names to columns, and the procedure
    is a computation in a small monad that records console lines and
    written files and stops at the first exception.

    What the script calls but does not define is kept apart.  The
    selections and reductions of pandas are written out after their
    documented defaults (NaN entries skipped, [ddof = 1], linear
    interpolation of quantiles).  The numerical routines of scipy
    ([stats.mannwhitneyu], [stats.norm.ppf]), the spreadsheet reader and
    the clock are fields of an environment [Env]: the theorems hold for
    every environment. *)

From Stdlib Require Import ZArith Ascii SpecFloat.
From stdpp Require Import gmap strings list.

Open Scope Z_scope.

(** ** Binary64 arithmetic *)

Module F64.

Definition prec : Z := 53.
Definition emax : Z := 1024.

Definition float : Type := spec_float.

Definition nan : float := S754_nan.

Definition add : float -> float -> float := SFadd prec emax.
Definition sub : float -> float -> float := SFsub prec emax.
Definition mul : float -> float -> float := SFmul prec emax.
Definition div : float -> float -> float := SFdiv prec emax.
Definition sqrt : float -> float := SFsqrt prec emax.
Definition abs : float -> float := SFabs.

Definition ltb : float -> float -> bool := SFltb.
Definition leb : float -> float -> bool := SFleb.

Definition is_nan (x : float) : bool :=
  match x with S754_nan => true | _ => false end.

(** Conversion of a Python [int] (round to nearest even). *)
Definition of_Z (z : Z) : float := binary_normalize prec emax z 0 false.
Definition of_nat (n : nat) : float := of_Z (Z.of_nat n).

(** [math.floor] of a finite number; [None] for infinities and NaN. *)
Definition floor (x : float) : option Z :=
  match x with
  | S754_zero _ => Some 0
  | S754_finite s m e => Some (Z.shiftl (cond_Zopp s (Z.pos m)) e)
  | _ => None
  end.

(** The literals of the script, as the nearest binary64 numbers. *)
Definition c0_05 : float := S754_finite false 7205759403792794 (-57). (* 0x1.999999999999ap-5 *)
Definition c0_10 : float := S754_finite false 7205759403792794 (-56). (* 0x1.999999999999ap-4 *)
Definition c0_30 : float := S754_finite false 5404319552844595 (-54). (* 0x1.3333333333333p-2 *)
Definition c0_50 : float := S754_finite false 4503599627370496 (-53). (* 0x1p-1 *)
Definition c0_25 : float := S754_finite false 4503599627370496 (-54). (* 0x1p-2 *)
Definition c0_75 : float := S754_finite false 6755399441055744 (-53). (* 0x1.8p-1 *)

End F64.

Abbreviation float := F64.float.

(** ** [interpret_effect_size] *)

Definition interpret_effect_size (r : float) : string :=
  if F64.ltb r F64.c0_10 then "Negligible effect"
  else if F64.ltb r F64.c0_30 then "Small effect"
  else if F64.ltb r F64.c0_50 then "Medium effect"
  else "Large effect".

(** ** Exceptions, console lines and written files *)

Inductive exn :=
| FileError (path : string)     (* [pd.read_excel] could not produce a table *)
| KeyError (column : string)    (* [df[column]] on a column the frame lacks *)
| TypeError                     (* a reduction met a cell that is not a number *)
| StatsError (msg : string).    (* raised inside [scipy.stats.mannwhitneyu] *)

Inductive cell :=
| CStr (s : string)
| CInt (z : Z)
| CNum (x : float).

(** A column in row order, and a frame as its columns by name. *)
Abbreviation Series := (list cell).
Abbreviation DataFrame := (gmap string (list cell)).

Inductive column :=
| StrCol (l : list string)
| NumCol (l : list float).

(** A frame built from a dict literal: keys in insertion order. *)
Definition table : Type := list (string * column).

Record results := {
  test_type : string;
  u_statistic : float;
  p_value : float;
  effect_size : float;
  effect_size_interpretation : string;
  significant : string;
  group_1 : string;
  group_2 : string;
  group_1_median : float;
  group_2_median : float
}.

Inductive fragment :=
| Text (s : string)
| Fixed4 (x : float)            (* a float under the format [:.4f] *)
| Frame (t : table).

Inductive sheet :=
| ResultsSheet (r : results)    (* [pd.DataFrame([results])], one row *)
| TableSheet (t : table).

Inductive plot :=
| Boxplot (x y : Series) (order : list string)
| Swarmplot (x y : Series) (order : list string)
| Violinplot (x y : Series) (order : list string) (inner : string).

Record figure := {
  left_panel : list plot;
  left_title : list fragment;
  right_panel : list plot;
  right_title : string
}.

Inductive event :=
| Console (line : list fragment)
| ExcelFile (name : string) (sheets : list (string * sheet))
| PngFile (name : string) (fig : figure) (dpi : Z) (bbox_inches : string).

(** ** The effect monad: a trace of events, then a value or an exception *)

Definition M (A : Type) : Type := list event * (exn + A).

#[global] Instance M_ret : MRet M := fun A a => ([], inr a).

#[global] Instance M_bind : MBind M := fun A B f m =>
  match m with
  | (t, inl e) => (t, inl e)
  | (t, inr a) => let '(t', r) := f a in (t ++ t', r)
  end.

Definition emit (e : event) : M unit := ([e], inr tt).
Definition lift {A} (r : exn + A) : M A := ([], r).

Definition trace {A} (m : M A) : list event := fst m.
Definition outcome {A} (m : M A) : exn + A := snd m.

(** ** pandas: selection *)

(** [df[name]] *)
Definition getitem (df : DataFrame) (name : string) : exn + Series :=
  match df !! name with
  | Some col => inr col
  | None => inl (KeyError name)
  end.

(** One entry of [column == label]: only a string cell can equal a string. *)
Definition cell_eq (c : cell) (label : string) : bool :=
  match c with
  | CStr s => bool_decide (s = label)
  | _ => false
  end.

(** [column == label] *)
Definition series_eq (col : Series) (label : string) : list bool :=
  map (fun c => cell_eq c label) col.

Fixpoint select {A} (mask : list bool) (col : list A) : list A :=
  match mask, col with
  | b :: mask', x :: col' => if b then x :: select mask' col' else select mask' col'
  | _, _ => []
  end.

(** [df[mask]]: every column keeps the rows the mask marks. *)
Definition getitem_mask (df : DataFrame) (mask : list bool) : DataFrame :=
  select mask <$> df.

(** [df[df[group_column] == name][value_column]] *)
Definition extract_group (df : DataFrame) (group_column name value_column : string)
  : exn + Series :=
  match getitem df group_column with
  | inl e => inl e
  | inr labels => getitem (getitem_mask df (series_eq labels name)) value_column
  end.

(** ** pandas: reductions of a numeric column

    NaN entries are skipped ([skipna=True]); sums accumulate from left to
    right, which is numpy's order for a column of fewer than eight cells
    (longer columns are summed in blocks there, and the last place of the
    result can differ). *)

Definition to_float (c : cell) : option float :=
  match c with
  | CStr _ => None
  | CInt z => Some (F64.of_Z z)
  | CNum x => Some x
  end.

Definition numeric (col : Series) : exn + list float :=
  match mapM to_float col with
  | Some xs => inr xs
  | None => inl TypeError
  end.

Definition dropna (xs : list float) : list float :=
  List.filter (fun x => negb (F64.is_nan x)) xs.

Definition sum (xs : list float) : float :=
  fold_left F64.add xs (S754_zero false).

Fixpoint insert_sorted (x : float) (l : list float) : list float :=
  match l with
  | [] => [x]
  | y :: l' => if F64.leb x y then x :: l else y :: insert_sorted x l'
  end.

Definition sort (xs : list float) : list float := fold_right insert_sorted [] xs.

(** [Series.median()] *)
Definition median (xs : list float) : float :=
  let v := sort (dropna xs) in
  let n := length v in
  if Nat.eqb n 0 then F64.nan
  else if Nat.odd n then nth (n / 2) v F64.nan
  else F64.div (F64.add (nth (n / 2 - 1) v F64.nan) (nth (n / 2) v F64.nan))
               (F64.of_Z 2).

(** [Series.mean()] *)
Definition mean (xs : list float) : float :=
  let v := dropna xs in
  let count := length v in
  if Nat.eqb count 0 then F64.nan
  else F64.div (sum v) (F64.of_nat count).

(** [Series.var()] with the default [ddof=1]: no value when at most
    [ddof] entries remain. *)
Definition var (xs : list float) : float :=
  let ddof := 1%nat in
  let v := dropna xs in
  let count := length v in
  if Nat.leb count ddof then F64.nan
  else
    let avg := F64.div (sum v) (F64.of_nat count) in
    let sqr := map (fun x => F64.mul (F64.sub avg x) (F64.sub avg x)) v in
    F64.div (sum sqr) (F64.of_nat (count - ddof)).

(** [Series.std()] *)
Definition std (xs : list float) : float := F64.sqrt (var xs).

(** numpy's linear interpolation between neighbours. *)
Definition lerp (a b t : float) : float :=
  let diff_b_a := F64.sub b a in
  if F64.leb F64.c0_50 t
  then F64.sub b (F64.mul diff_b_a (F64.sub (F64.of_Z 1) t))
  else F64.add a (F64.mul diff_b_a t).

(** [arr[i]], a negative index counting from the end. *)
Definition item (arr : list float) (i : Z) : float :=
  nth (Z.to_nat (if Z.ltb i 0 then Z.of_nat (length arr) + i else i)) arr F64.nan.

(** [np.percentile(v, q100)] with the default linear method. *)
Definition percentile (v : list float) (q100 : float) : float :=
  let arr := sort v in
  let last := Z.of_nat (length arr) - 1 in
  let q := F64.div q100 (F64.of_Z 100) in
  let virtual_index := F64.mul (F64.of_Z last) q in
  let '(previous, next) :=
    if F64.leb (F64.of_Z last) virtual_index then (-1, -1)
    else if F64.ltb virtual_index (F64.of_Z 0) then (0, 0)
    else match F64.floor virtual_index with
         | Some i => (i, i + 1)
         | None => (0, 0)
         end in
  let gamma := F64.sub virtual_index (F64.of_Z previous) in
  lerp (item arr previous) (item arr next) gamma.

(** [Series.quantile(q)] *)
Definition quantile (xs : list float) (q : float) : float :=
  let v := dropna xs in
  if Nat.eqb (length v) 0 then F64.nan
  else percentile v (F64.mul q (F64.of_Z 100)).

(** ** The clock and the timestamp *)

Record datetime := {
  year : Z; month : Z; day : Z;
  hour : Z; minute : Z; second : Z;
  microsecond : Z
}.

(** The ranges [datetime] guarantees, from year 1000 on. *)
Definition valid_datetime (t : datetime) : Prop :=
  1000 <= year t <= 9999 /\ 1 <= month t <= 12 /\ 1 <= day t <= 31 /\
  0 <= hour t <= 23 /\ 0 <= minute t <= 59 /\ 0 <= second t <= 59 /\
  0 <= microsecond t <= 999999.

Definition digit (n : Z) : ascii := ascii_of_N (Z.to_N (48 + n mod 10)).

(** The last [width] decimal digits of [n], most significant first. *)
Fixpoint decimal (width : nat) (n : Z) : string :=
  match width with
  | O => ""
  | S w => decimal w (n / 10) +:+ String (digit n) ""
  end.

(** [t.strftime('%Y%m%d_%H%M%S')], for the readings of [valid_datetime]
    (how a year below 1000 is padded depends on the platform). *)
Definition strftime (t : datetime) : string :=
  decimal 4 (year t) +:+ decimal 2 (month t) +:+ decimal 2 (day t) +:+ "_" +:+
  decimal 2 (hour t) +:+ decimal 2 (minute t) +:+ decimal 2 (second t).

(** ** What the script takes from its environment *)

Record Env := {
  (** [pd.read_excel(path)] on the current file system *)
  read_excel : string -> exn + DataFrame;
  (** [stats.mannwhitneyu(x, y, alternative='two-sided')]: the statistic
      and the p-value, or the message of the exception it raises *)
  mannwhitneyu : Series -> Series -> string + (float * float);
  (** [stats.norm.ppf] *)
  norm_ppf : float -> float;
  (** [datetime.now()] *)
  now : datetime
}.

(** ** [perform_mannwhitney_analysis] *)

Definition newline : string := String (ascii_of_nat 10) "".

(** A dict literal entry: a repeated key keeps its place and takes the
    later value. *)
Fixpoint dict_set (k : string) (v : column) (d : table) : table :=
  match d with
  | [] => [(k, v)]
  | (k', v') :: d' =>
      if bool_decide (k' = k) then (k, v) :: d' else (k', v') :: dict_set k v d'
  end.

Definition describe (data : Series) (xs : list float) : list float :=
  [ F64.of_nat (length data); median xs; mean xs; std xs;
    quantile xs F64.c0_25; quantile xs F64.c0_75 ].

Definition statistic_names : list string :=
  [ "Count"; "Median"; "Mean"; "Std Dev"; "25th Percentile"; "75th Percentile" ].

Definition desc_stats (group1_name group2_name : string)
    (group1_data group2_data : Series) (g1 g2 : list float) : table :=
  dict_set group2_name (NumCol (describe group2_data g2))
    (dict_set group1_name (NumCol (describe group1_data g1))
       (dict_set "Statistic" (StrCol statistic_names) [])).

Definition stats_call {A} (r : string + A) : exn + A :=
  match r with
  | inl msg => inl (StatsError msg)
  | inr a => inr a
  end.

Definition perform_mannwhitney_analysis (env : Env)
    (excel_path group_column value_column group1_name group2_name
     output_prefix : string) : M unit :=
  emit (Console [Text "Reading data from "; Text excel_path; Text "..."]);;
  df ← lift (read_excel env excel_path);
  (* Extract the two groups *)
  group1_data ← lift (extract_group df group_column group1_name value_column);
  group2_data ← lift (extract_group df group_column group2_name value_column);
  (* Perform Mann-Whitney U test *)
  '(statistic, p_value) ← lift (stats_call (mannwhitneyu env group1_data group2_data));
  (* Calculate effect size (r = Z / sqrt(N)) *)
  let n1 := length group1_data in
  let n2 := length group2_data in
  let z_score := norm_ppf env (F64.div p_value (F64.of_Z 2)) in
  let effect_size := F64.abs (F64.div z_score (F64.sqrt (F64.of_nat (n1 + n2)))) in
  (* Calculate descriptive statistics *)
  g1 ← lift (numeric group1_data);
  g2 ← lift (numeric group2_data);
  let desc := desc_stats group1_name group2_name group1_data group2_data g1 g2 in
  (* Create results dictionary *)
  let res :=
    {| test_type := "Mann-Whitney U Test";
       u_statistic := statistic;
       p_value := p_value;
       effect_size := effect_size;
       effect_size_interpretation := interpret_effect_size effect_size;
       significant := if F64.ltb p_value F64.c0_05 then "Yes" else "No";
       group_1 := group1_name;
       group_2 := group2_name;
       group_1_median := median g1;
       group_2_median := median g2 |} in
  (* Create timestamp for file naming *)
  let timestamp := strftime (now env) in
  (* Save results to Excel *)
  let excel_output := output_prefix +:+ "_results_" +:+ timestamp +:+ ".xlsx" in
  emit (ExcelFile excel_output
          [("Test Results", ResultsSheet res); ("Descriptive Stats", TableSheet desc)]);;
  emit (Console [Text newline; Text "Results saved to:"; Text " "; Text excel_output]);;
  (* Create visualizations *)
  x ← lift (getitem df group_column);
  y ← lift (getitem df value_column);
  let order := [group1_name; group2_name] in
  let fig :=
    {| left_panel := [Boxplot x y order; Swarmplot x y order];
       left_title := [Text "Distribution Comparison"; Text newline;
                      Text "p = "; Fixed4 p_value];
       right_panel := [Violinplot x y order "quartile"];
       right_title := "Distribution Density with Quartiles" |} in
  (* Save plot *)
  let plot_output := output_prefix +:+ "_plot_" +:+ timestamp +:+ ".png" in
  emit (PngFile plot_output fig 300 "tight");;
  emit (Console [Text "Plot saved to:"; Text " "; Text plot_output]);;
  (* Print results to terminal *)
  emit (Console [Text newline; Text "Mann-Whitney U Test Results:"]);;
  emit (Console [Text "--------------------------"]);;
  emit (Console [Text "U-statistic: "; Fixed4 statistic]);;
  emit (Console [Text "p-value: "; Fixed4 p_value]);;
  emit (Console [Text "Effect size (r): "; Fixed4 effect_size]);;
  emit (Console [Text "Effect size interpretation: ";
                 Text (interpret_effect_size effect_size)]);;
  emit (Console [Text "Significant difference: ";
                 Text (if F64.ltb p_value F64.c0_05 then "Yes" else "No")]);;
  emit (Console [Text newline; Text "Descriptive Statistics:"]);;
  emit (Console [Frame desc]).

(** The invocation under [if __name__ == "__main__"]. *)
Definition main (env : Env) : M unit :=
  perform_mannwhitney_analysis env
    "data.xlsx" "Group" "Value" "Control" "Treatment" "mannwhitney".

(** ** Reading a trace *)

(** The names of the workbooks and of the images a run wrote, in order. *)
Definition excel_files (t : list event) : list string :=
  omap (fun e => match e with ExcelFile name _ => Some name | _ => None end) t.

Definition png_files (t : list event) : list string :=
  omap (fun e => match e with PngFile name _ _ _ => Some name | _ => None end) t.

(** The sheets of the workbooks a run wrote. *)
Definition sheets_written (t : list event) : list (string * sheet) :=
  mjoin (omap (fun e => match e with ExcelFile _ sh => Some sh | _ => None end) t).

(** The test result a run reported: the row of the sheet "Test Results". *)
Definition reported (t : list event) : option results :=
  head (omap (fun ns => match ns with
                        | (_, ResultsSheet r) => Some r
                        | _ => None
                        end) (sheets_written t)).

(** The table of the sheet "Descriptive Stats". *)
Definition reported_stats (t : list event) : option table :=
  head (omap (fun ns => match ns with
                        | (_, TableSheet d) => Some d
                        | _ => None
                        end) (sheets_written t)).

(** ** The splitter, in the words of its contract *)

(** The value entries of the rows whose label entry is the string
    [name], in row order. *)
Definition rows_with_label (labels values : Series) (name : string) : Series :=
  map snd (List.filter (fun row => cell_eq (fst row) name) (combine labels values)).

(** ** Reading a timestamp back *)

Definition is_digit (c : ascii) : bool :=
  (48 <=? N_of_ascii c)%N && (N_of_ascii c <=? 57)%N.

Fixpoint all_digits (s : string) : bool :=
  match s with
  | EmptyString => true
  | String c s' => is_digit c && all_digits s'
  end.

(** [int(s)] for a string of decimal digits, continuing from [acc]. *)
Fixpoint parse_decimal (acc : Z) (s : string) : Z :=
  match s with
  | EmptyString => acc
  | String c s' => parse_decimal (10 * acc + (Z.of_N (N_of_ascii c) - 48)) s'
  end.

(** A field of a timestamp: [width] digits that read as [n]. *)
Definition field (width : nat) (n : Z) (s : string) : Prop :=
  String.length s = width /\ all_digits s = true /\ parse_decimal 0 s = n.

(** ** An environment for the examples *)

(** A sheet of four rows; the last label is a number, one value is empty. *)
Definition sample_frame : DataFrame :=
  {[ "Group" := [CStr "Control"; CStr "Treatment"; CStr "Control"; CInt 3];
     "Value" := [CInt 1; CInt 2; CNum F64.nan; CInt 9] ]}.

Definition sample_clock : datetime :=
  {| year := 2026; month := 11; day := 4;
     hour := 9; minute := 5; second := 0; microsecond := 123 |}.

(** The statistics routines answer with fixed numbers here, and the test
    rejects an empty sample. *)
Definition sample_env : Env :=
  {| read_excel := fun path =>
       if bool_decide (path = "data.xlsx") then inr sample_frame
       else inl (FileError path);
     mannwhitneyu := fun x y =>
       match x, y with
       | [], _ | _, [] => inl "`x` and `y` must be of nonzero size."
       | _, _ => inr (F64.of_Z 1, F64.c0_50)
       end;
     norm_ppf := fun _ => S754_zero false;
     now := sample_clock |}.

Definition sample_run : M unit := main sample_env.

(** The same sheet, asked for a label it does not have. *)
Definition sample_run_missing : M unit :=
  perform_mannwhitney_analysis sample_env
    "data.xlsx" "Group" "Value" "Control" "Placebo" "mannwhitney".

(** The sample 1, 2, 3, 4, 5 as a column of integers and as one of floats. *)
Definition one_to_five : list Z := [1; 2; 3; 4; 5].
Definition one_to_five_ints : Series := map CInt one_to_five.
Definition one_to_five_floats : Series := map (fun z => CNum (F64.of_Z z)) one_to_five.

(** ** The stages of a run *)

(** The run read the sheet, extracted the samples [g1] and [g2] and the
    test answered with the statistic [U] and the p-value [p]. *)
Definition tested (env : Env)
    (excel_path group_column value_column group1_name group2_name : string)
    (g1 g2 : Series) (U p : float) : Prop :=
  exists df,
    read_excel env excel_path = inr df /\
    extract_group df group_column group1_name value_column = inr g1 /\
    extract_group df group_column group2_name value_column = inr g2 /\
    mannwhitneyu env g1 g2 = inr (U, p).

(** ** The ways a run fails *)

(** The exception a run ends with, stage by stage: the reader, the two
    extractions, the test, the conversion of the two samples to numbers. *)
Inductive failure (env : Env)
    (excel_path group_column value_column group1_name group2_name : string)
  : exn -> Prop :=
| fail_read e :
    read_excel env excel_path = inl e ->
    failure env excel_path group_column value_column group1_name group2_name e
| fail_group1 df e :
    read_excel env excel_path = inr df ->
    extract_group df group_column group1_name value_column = inl e ->
    failure env excel_path group_column value_column group1_name group2_name e
| fail_group2 df g1 e :
    read_excel env excel_path = inr df ->
    extract_group df group_column group1_name value_column = inr g1 ->
    extract_group df group_column group2_name value_column = inl e ->
    failure env excel_path group_column value_column group1_name group2_name e
| fail_test df g1 g2 msg :
    read_excel env excel_path = inr df ->
    extract_group df group_column group1_name value_column = inr g1 ->
    extract_group df group_column group2_name value_column = inr g2 ->
    mannwhitneyu env g1 g2 = inl msg ->
    failure env excel_path group_column value_column group1_name group2_name
      (StatsError msg)
| fail_numeric1 df g1 g2 U p e :
    read_excel env excel_path = inr df ->
    extract_group df group_column group1_name value_column = inr g1 ->
    extract_group df group_column group2_name value_column = inr g2 ->
    mannwhitneyu env g1 g2 = inr (U, p) ->
    numeric g1 = inl e ->
    failure env excel_path group_column value_column group1_name group2_name e
| fail_numeric2 df g1 g2 U p x1 e :
    read_excel env excel_path = inr df ->
    extract_group df group_column group1_name value_column = inr g1 ->
    extract_group df group_column group2_name value_column = inr g2 ->
    mannwhitneyu env g1 g2 = inr (U, p) ->
    numeric g1 = inr x1 ->
    numeric g2 = inl e ->
    failure env excel_path group_column value_column group1_name group2_name e.

(** ** Reading a table and a figure *)

(** [table[name]] *)
Fixpoint dict_get (k : string) (d : table) : option column :=
  match d with
  | [] => None
  | (k', v) :: d' => if bool_decide (k' = k) then Some v else dict_get k d'
  end.


(** The arguments of the [print] calls of a run, one entry per call, in
    order. *)
Definition console (t : list event) : list (list fragment) :=
  omap (fun e => match e with Console line => Some line | _ => None end) t.

(** ** The strength of a label *)

Definition strength (label : string) : nat :=
  if bool_decide (label = "Negligible effect") then 0
  else if bool_decide (label = "Small effect") then 1
  else if bool_decide (label = "Medium effect") then 2
  else 3.

(** ** More environments for the examples *)

(** Ten rows labelled "Control" with the values 1 to 10, then ten rows
    labelled "Treatment" with the values 11 to 20. *)
Definition trial_labels : Series :=
  replicate 10 (CStr "Control") ++ replicate 10 (CStr "Treatment").
Definition trial_values : Series := map CInt (seqZ 1 20).
Definition trial_frame : DataFrame :=
  {[ "Group" := trial_labels; "Value" := trial_values ]}.

(** An environment whose test answers with NaN and whose inverse normal
    distribution function returns NaN for NaN. *)
Definition nan_env : Env :=
  {| read_excel := fun path =>
       if bool_decide (path = "data.xlsx") then inr sample_frame
       else inl (FileError path);
     mannwhitneyu := fun _ _ => inr (F64.nan, F64.nan);
     norm_ppf := fun p => if F64.is_nan p then F64.nan else S754_zero false;
     now := sample_clock |}.

(** The sample environment with a test that answers an empty sample with
    NaN for the statistic and for the p-value, instead of raising. *)
Definition lenient_env : Env :=
  {| read_excel := read_excel sample_env;
     mannwhitneyu := fun x y =>
       match x, y with
       | [], _ | _, [] => inr (F64.nan, F64.nan)
       | _, _ => inr (F64.of_Z 1, F64.c0_50)
       end;
     norm_ppf := fun p => if F64.is_nan p then F64.nan else S754_zero false;
     now := sample_clock |}.

Definition lenient_run_missing : M unit :=
  perform_mannwhitney_analysis lenient_env
    "data.xlsx" "Group" "Value" "Control" "Placebo" "mannwhitney".

Definition later_clock : datetime :=
  {| year := 2026; month := 11; day := 4;
     hour := 9; minute := 5; second := 0; microsecond := 999999 |}.

(** ** Threshold behaviour of [interpret_effect_size] *)

Section Thresholds.

Lemma SFcompare_antisym (x y : float) :
  SFcompare y x = option_map CompOpp (SFcompare x y).
Proof.
  destruct x as [sx | sx | | sx mx ex], y as [sy | sy | | sy my ey];
    try destruct sx; try destruct sy; try reflexivity; simpl;
    rewrite (Z.compare_antisym ey ex);
    destruct (ey ?= ex); simpl; try reflexivity;
    rewrite (Pos.compare_cont_antisym mx my Eq); simpl;
    now rewrite ?CompOpp_involutive.
Qed.

Lemma leb_ltb_flip (c r : float) :
  F64.is_nan c = false ->
  F64.leb c r = negb (F64.is_nan r) && negb (F64.ltb r c).
Proof.
  intros Hc. unfold F64.leb, F64.ltb, SFleb, SFltb.
  rewrite (SFcompare_antisym r c).
  destruct r as [s | s | | s m e]; [| | now destruct c |];
    (destruct c as [sc | sc | | sc mc ec]; [| | discriminate |]);
    simpl;
    repeat match goal with
           | |- context [if ?b then _ else _] => destruct b
           | |- context [?a ?= ?b] => destruct (a ?= b)
           | |- context [Pos.compare_cont ?c ?a ?b] =>
               destruct (Pos.compare_cont c a b)
           end; reflexivity.
Qed.

Local Ltac below_next r :=
  destruct r as [s | s | | s m e]; try discriminate;
  cbv [F64.ltb SFltb SFcompare F64.c0_10 F64.c0_30 F64.c0_50];
  try destruct s; try reflexivity; try discriminate;
  repeat match goal with
         | |- context [?a ?= ?b] => destruct (Z.compare_spec a b)
         end; try lia; try reflexivity; try discriminate.

Lemma ltb_0_10_0_30 (r : float) :
  F64.ltb r F64.c0_10 = true -> F64.ltb r F64.c0_30 = true.
Proof. below_next r. Qed.

Lemma ltb_0_30_0_50 (r : float) :
  F64.ltb r F64.c0_30 = true -> F64.ltb r F64.c0_50 = true.
Proof. below_next r. Qed.

(** C2, as the code has it: on every number (not NaN) the label is
    "Negligible effect" exactly below 0.10, "Small effect" exactly on
    [0.10, 0.30), "Medium effect" exactly on [0.30, 0.50) and
    "Large effect" exactly from 0.50 on; each lower bound is inclusive,
    so 0.10, 0.30 and 0.50 map to "Small effect", "Medium effect" and
    "Large effect". *)
Theorem interpret_effect_size_thresholds (r : float) :
  F64.is_nan r = false ->
  (interpret_effect_size r = "Negligible effect" <->
     F64.ltb r F64.c0_10 = true) /\
  (interpret_effect_size r = "Small effect" <->
     F64.leb F64.c0_10 r = true /\ F64.ltb r F64.c0_30 = true) /\
  (interpret_effect_size r = "Medium effect" <->
     F64.leb F64.c0_30 r = true /\ F64.ltb r F64.c0_50 = true) /\
  (interpret_effect_size r = "Large effect" <->
     F64.leb F64.c0_50 r = true) /\
  interpret_effect_size F64.c0_10 = "Small effect" /\
  interpret_effect_size F64.c0_30 = "Medium effect" /\
  interpret_effect_size F64.c0_50 = "Large effect".
Proof.
  intros Hr.
  rewrite !leb_ltb_flip by reflexivity. rewrite Hr. simpl negb.
  pose proof (ltb_0_10_0_30 r) as H13.
  pose proof (ltb_0_30_0_50 r) as H35.
  unfold interpret_effect_size at 1 2 3 4.
  destruct (F64.ltb r F64.c0_10), (F64.ltb r F64.c0_30),
    (F64.ltb r F64.c0_50); simpl;
    try (specialize (H13 eq_refl)); try (specialize (H35 eq_refl));
    try discriminate;
    repeat split; try reflexivity; try discriminate;
    try (intros [? ?]; discriminate).
Qed.

(** The theorem at the boundary 0.30. *)
Lemma interpret_effect_size_thresholds_witness :
  F64.is_nan F64.c0_30 = false /\
  (interpret_effect_size F64.c0_30 = "Medium effect" <->
     F64.leb F64.c0_30 F64.c0_30 = true /\ F64.ltb F64.c0_30 F64.c0_50 = true).
Proof.
  split; [reflexivity|].
  apply (interpret_effect_size_thresholds F64.c0_30). reflexivity.
Defined.

(** The labels are not the bare words: below 0.10 the function does
    not return "negligible". *)
Lemma interpret_effect_size_label_counterexample :
  F64.ltb F64.c0_05 F64.c0_10 = true /\
  interpret_effect_size F64.c0_05 <> "negligible".
Proof. split; [reflexivity | discriminate]. Qed.

(** The boundary table of the specification. *)
Example interpret_effect_size_boundaries :
  map interpret_effect_size
    [ S754_finite false 7133701809754866 (-56);   (* 0.099 *)
      F64.c0_10;
      S754_finite false 5386305154335113 (-54);   (* 0.299 *)
      F64.c0_30;
      S754_finite false 8989184856231510 (-54);   (* 0.499 *)
      F64.c0_50 ]
  = [ "Negligible effect"; "Small effect"; "Small effect";
      "Medium effect"; "Medium effect"; "Large effect" ].
Proof. reflexivity. Qed.

End Thresholds.

(** ** The splitter *)

Section Splitter.

Lemma select_series_eq (labels values : Series) (name : string) :
  select (series_eq labels name) values = rows_with_label labels values name.
Proof.
  unfold rows_with_label, series_eq.
  revert values; induction labels as [|l labels IH]; intros [|v values];
    simpl; try reflexivity.
  destruct (cell_eq l name); simpl; now rewrite IH.
Qed.

Lemma rows_with_label_absent (labels values : Series) (name : string) :
  CStr name ∉ labels -> rows_with_label labels values name = [].
Proof.
  unfold rows_with_label.
  revert values; induction labels as [|l labels IH]; intros [|v values] Hn;
    simpl; try reflexivity.
  apply not_elem_of_cons in Hn as [Hl Hn].
  destruct l as [s | z | x]; simpl; try now apply IH.
  rewrite bool_decide_eq_false_2 by congruence. now apply IH.
Qed.

Lemma extract_group_lookup (df : DataFrame) (gc vc name : string)
    (labels values : Series) :
  df !! gc = Some labels -> df !! vc = Some values ->
  extract_group df gc name vc = inr (rows_with_label labels values name).
Proof.
  intros Hl Hv. unfold extract_group, getitem, getitem_mask.
  rewrite Hl, lookup_fmap, Hv. simpl. now rewrite select_series_eq.
Qed.

Lemma extract_group_inv (df : DataFrame) (gc vc name : string) (g : Series) :
  extract_group df gc name vc = inr g ->
  exists labels values,
    df !! gc = Some labels /\ df !! vc = Some values /\
    g = rows_with_label labels values name.
Proof.
  unfold extract_group, getitem, getitem_mask.
  destruct (df !! gc) as [labels|] eqn:Hl; [|discriminate].
  rewrite lookup_fmap.
  destruct (df !! vc) as [values|] eqn:Hv; [|discriminate].
  simpl. intros [= <-]. exists labels, values. now rewrite select_series_eq.
Qed.

(** C4: when the frame has the label column and the value column, the
    splitter returns, for each of the two target strings, exactly the
    value entries of the rows whose label entry equals that string, in
    row order; nothing checks that a sequence is non-empty: a target
    that labels no row gives the empty sequence, not an exception. *)
Theorem splitter_contract (df : DataFrame)
    (group_column value_column group1_name group2_name : string)
    (labels values : Series) :
  df !! group_column = Some labels ->
  df !! value_column = Some values ->
  extract_group df group_column group1_name value_column
    = inr (rows_with_label labels values group1_name) /\
  extract_group df group_column group2_name value_column
    = inr (rows_with_label labels values group2_name) /\
  (forall name, CStr name ∉ labels ->
     extract_group df group_column name value_column = inr []).
Proof.
  intros Hl Hv. repeat split.
  - now apply extract_group_lookup.
  - now apply extract_group_lookup.
  - intros name Hn. rewrite (extract_group_lookup _ _ _ _ _ _ Hl Hv).
    now rewrite rows_with_label_absent.
Qed.

(** The theorem on the sample sheet. *)
Lemma splitter_contract_witness :
  extract_group sample_frame "Group" "Control" "Value"
    = inr [CInt 1; CNum F64.nan] /\
  extract_group sample_frame "Group" "Treatment" "Value" = inr [CInt 2] /\
  extract_group sample_frame "Group" "Placebo" "Value" = inr [].
Proof.
  destruct (splitter_contract sample_frame "Group" "Value" "Control" "Treatment"
              [CStr "Control"; CStr "Treatment"; CStr "Control"; CInt 3]
              [CInt 1; CInt 2; CNum F64.nan; CInt 9]
              eq_refl eq_refl) as (H1 & H2 & H3).
  split; [exact H1 | split; [exact H2 |]].
  apply H3. intros Hin. repeat (apply elem_of_cons in Hin as [Hin|Hin]; [discriminate|]).
  now apply elem_of_nil in Hin.
Defined.

End Splitter.

(** ** The timestamp *)

Section Timestamp.

Lemma app_cons (c : ascii) (s t : string) :
  String c s +:+ t = String c (s +:+ t).
Proof. reflexivity. Qed.

Lemma length_app (s t : string) :
  String.length (s +:+ t) = (String.length s + String.length t)%nat.
Proof.
  induction s as [|c s IH]; [reflexivity|].
  rewrite app_cons. simpl. now rewrite IH.
Qed.

Lemma all_digits_app (s t : string) :
  all_digits (s +:+ t) = all_digits s && all_digits t.
Proof.
  induction s as [|c s IH]; [reflexivity|].
  rewrite app_cons. simpl. now rewrite IH, andb_assoc.
Qed.

Lemma parse_decimal_app (s t : string) (acc : Z) :
  parse_decimal acc (s +:+ t) = parse_decimal (parse_decimal acc s) t.
Proof.
  revert acc; induction s as [|c s IH]; intros acc; [reflexivity|].
  rewrite app_cons. simpl. now rewrite IH.
Qed.

Lemma N_of_digit (n : Z) : N_of_ascii (digit n) = Z.to_N (48 + n mod 10).
Proof.
  unfold digit. apply N_ascii_embedding.
  pose proof (Z.mod_pos_bound n 10 eq_refl). lia.
Qed.

Lemma is_digit_digit (n : Z) : is_digit (digit n) = true.
Proof.
  unfold is_digit. rewrite N_of_digit.
  pose proof (Z.mod_pos_bound n 10 eq_refl).
  apply andb_true_intro; split; apply N.leb_le; lia.
Qed.

Lemma decimal_length (w : nat) (n : Z) : String.length (decimal w n) = w.
Proof.
  revert n; induction w as [|w IH]; intros n; [reflexivity|].
  cbn [decimal]. rewrite length_app, IH. simpl. lia.
Qed.

Lemma decimal_digits (w : nat) (n : Z) : all_digits (decimal w n) = true.
Proof.
  revert n; induction w as [|w IH]; intros n; [reflexivity|].
  cbn [decimal]. rewrite all_digits_app, IH. simpl.
  now rewrite is_digit_digit.
Qed.

Lemma parse_decimal_decimal (w : nat) (n acc : Z) :
  0 <= n < 10 ^ Z.of_nat w ->
  parse_decimal acc (decimal w n) = acc * 10 ^ Z.of_nat w + n.
Proof.
  revert n acc; induction w as [|w IH]; intros n acc Hn.
  - simpl in *. lia.
  - cbn [decimal]. rewrite parse_decimal_app.
    rewrite Nat2Z.inj_succ, Z.pow_succ_r in * by lia.
    rewrite IH by (split; [apply Z.div_pos; lia | apply Z.div_lt_upper_bound; lia]).
    simpl. rewrite N_of_digit.
    pose proof (Z.mod_pos_bound n 10 eq_refl).
    pose proof (Z.div_mod n 10 ltac:(lia)).
    rewrite Z2N.id by lia. lia.
Qed.

Lemma decimal_field (w : nat) (n : Z) :
  0 <= n < 10 ^ Z.of_nat w -> field w n (decimal w n).
Proof.
  intros Hn. split; [apply decimal_length|].
  split; [apply decimal_digits|].
  rewrite parse_decimal_decimal by assumption. lia.
Qed.

End Timestamp.

(** ** The run as a whole *)

Section Run.

Context (env : Env).
Context (excel_path group_column value_column : string).
Context (group1_name group2_name output_prefix : string).

Local Abbreviation run :=
  (perform_mannwhitney_analysis env excel_path group_column value_column
     group1_name group2_name output_prefix).

Local Abbreviation reading :=
  (Console [Text "Reading data from "; Text excel_path; Text "..."]).

(** A run that reaches the workbook went through every earlier stage. *)
Lemma run_stages (P : M unit -> Prop) :
  (forall t e, excel_files t = [] -> reported t = None -> P (t, inl e)) ->
  (forall df g1 g2 U p x1 x2,
      read_excel env excel_path = inr df ->
      extract_group df group_column group1_name value_column = inr g1 ->
      extract_group df group_column group2_name value_column = inr g2 ->
      mannwhitneyu env g1 g2 = inr (U, p) ->
      numeric g1 = inr x1 -> numeric g2 = inr x2 ->
      P run) ->
  P run.
Proof.
  intros Hfail Hok.
  destruct (read_excel env excel_path) as [e|df] eqn:Hdf.
  { unfold perform_mannwhitney_analysis. rewrite Hdf. now apply Hfail. }
  destruct (extract_group df group_column group1_name value_column)
    as [e|g1] eqn:Hg1.
  { unfold perform_mannwhitney_analysis. rewrite Hdf. cbn [lift mbind M_bind emit].
    rewrite Hg1. now apply Hfail. }
  destruct (extract_group df group_column group2_name value_column)
    as [e|g2] eqn:Hg2.
  { unfold perform_mannwhitney_analysis. rewrite Hdf. cbn [lift mbind M_bind emit].
    rewrite Hg1, Hg2. now apply Hfail. }
  destruct (mannwhitneyu env g1 g2) as [msg|[U p]] eqn:Hm.
  { unfold perform_mannwhitney_analysis. rewrite Hdf. cbn [lift mbind M_bind emit].
    rewrite Hg1, Hg2. cbn [lift mbind M_bind emit]. rewrite Hm. now apply Hfail. }
  destruct (numeric g1) as [e|x1] eqn:Hx1.
  { unfold perform_mannwhitney_analysis. rewrite Hdf. cbn [lift mbind M_bind emit].
    rewrite Hg1, Hg2. cbn [lift mbind M_bind emit]. rewrite Hm.
    cbn [lift mbind M_bind emit stats_call]. rewrite Hx1. now apply Hfail. }
  destruct (numeric g2) as [e|x2] eqn:Hx2.
  { unfold perform_mannwhitney_analysis. rewrite Hdf. cbn [lift mbind M_bind emit].
    rewrite Hg1, Hg2. cbn [lift mbind M_bind emit]. rewrite Hm.
    cbn [lift mbind M_bind emit stats_call]. rewrite Hx1, Hx2. now apply Hfail. }
  now apply (Hok df g1 g2 U p x1 x2).
Qed.

(** What a run leaves behind when every stage succeeds. *)
Lemma run_success df g1 g2 U p x1 x2 :
  read_excel env excel_path = inr df ->
  extract_group df group_column group1_name value_column = inr g1 ->
  extract_group df group_column group2_name value_column = inr g2 ->
  mannwhitneyu env g1 g2 = inr (U, p) ->
  numeric g1 = inr x1 -> numeric g2 = inr x2 ->
  let r := F64.abs (F64.div (norm_ppf env (F64.div p (F64.of_Z 2)))
                      (F64.sqrt (F64.of_nat (length g1 + length g2)))) in
  outcome run = inr tt /\
  reported (trace run) =
    Some {| test_type := "Mann-Whitney U Test";
            u_statistic := U;
            p_value := p;
            effect_size := r;
            effect_size_interpretation := interpret_effect_size r;
            significant := if F64.ltb p F64.c0_05 then "Yes" else "No";
            group_1 := group1_name;
            group_2 := group2_name;
            group_1_median := median x1;
            group_2_median := median x2 |} /\
  reported_stats (trace run) =
    Some (desc_stats group1_name group2_name g1 g2 x1 x2) /\
  excel_files (trace run) =
    [output_prefix +:+ "_results_" +:+ strftime (now env) +:+ ".xlsx"] /\
  png_files (trace run) =
    [output_prefix +:+ "_plot_" +:+ strftime (now env) +:+ ".png"].
Proof.
  intros Hdf Hg1 Hg2 Hm Hx1 Hx2 r.
  destruct (extract_group_inv _ _ _ _ _ Hg1) as (labels & values & Hl & Hv & _).
  unfold perform_mannwhitney_analysis.
  rewrite Hdf. cbn [lift mbind M_bind emit].
  rewrite Hg1, Hg2. cbn [lift mbind M_bind emit].
  rewrite Hm. cbn [lift mbind M_bind emit stats_call].
  rewrite Hx1, Hx2. unfold getitem. rewrite Hl, Hv.
  cbn [lift mbind M_bind emit].
  repeat split.
Qed.

(** A reported result comes from a run whose every stage succeeded. *)
Lemma reported_inv (res : results) :
  reported (trace run) = Some res ->
  exists df g1 g2 U p x1 x2,
    read_excel env excel_path = inr df /\
    extract_group df group_column group1_name value_column = inr g1 /\
    extract_group df group_column group2_name value_column = inr g2 /\
    mannwhitneyu env g1 g2 = inr (U, p) /\
    numeric g1 = inr x1 /\ numeric g2 = inr x2.
Proof.
  apply (run_stages (fun m => reported (trace m) = Some res -> _)).
  - intros t e _ Hnone. simpl. rewrite Hnone. discriminate.
  - intros df g1 g2 U p x1 x2 ? ? ? ? ? ? _.
    now exists df, g1, g2, U, p, x1, x2.
Qed.

Lemma outcome_inv :
  outcome run = inr tt ->
  exists df g1 g2 U p x1 x2,
    read_excel env excel_path = inr df /\
    extract_group df group_column group1_name value_column = inr g1 /\
    extract_group df group_column group2_name value_column = inr g2 /\
    mannwhitneyu env g1 g2 = inr (U, p) /\
    numeric g1 = inr x1 /\ numeric g2 = inr x2.
Proof.
  apply (run_stages (fun m => outcome m = inr tt -> _)).
  - intros t e _ _. discriminate.
  - intros df g1 g2 U p x1 x2 ? ? ? ? ? ? _.
    now exists df, g1, g2, U, p, x1, x2.
Qed.

(** C1: the effect size a run reports is |z / sqrt(n1 + n2)|, where n1
    and n2 are the sizes of the two extracted samples, p is the two-sided
    p-value the test returned for them and z is the inverse standard
    normal distribution function at p / 2. *)
Theorem effect_size_formula (res : results) :
  reported (trace run) = Some res ->
  exists g1 g2 U,
    tested env excel_path group_column value_column group1_name group2_name
      g1 g2 U (p_value res) /\
    effect_size res =
      F64.abs (F64.div (norm_ppf env (F64.div (p_value res) (F64.of_Z 2)))
                 (F64.sqrt (F64.of_nat (length g1 + length g2)))).
Proof.
  intros Hres.
  destruct (reported_inv res Hres)
    as (df & g1 & g2 & U & p & x1 & x2 & Hdf & Hg1 & Hg2 & Hm & Hx1 & Hx2).
  destruct (run_success df g1 g2 U p x1 x2 Hdf Hg1 Hg2 Hm Hx1 Hx2)
    as (_ & Hrep & _).
  rewrite Hrep in Hres. injection Hres as <-. cbn [p_value effect_size].
  exists g1, g2, U. split; [|reflexivity]. now exists df.
Qed.

(** C3: the significance entry of a reported result is "Yes" exactly
    when the p-value the test returned is below 0.05, and "No"
    otherwise, whatever the parameters of the invocation are. *)
Theorem significance_flag (res : results) :
  reported (trace run) = Some res ->
  (exists g1 g2 U,
      tested env excel_path group_column value_column group1_name group2_name
        g1 g2 U (p_value res)) /\
  (significant res = "Yes" <-> F64.ltb (p_value res) F64.c0_05 = true) /\
  (significant res = "No" <-> F64.ltb (p_value res) F64.c0_05 = false).
Proof.
  intros Hres.
  destruct (reported_inv res Hres)
    as (df & g1 & g2 & U & p & x1 & x2 & Hdf & Hg1 & Hg2 & Hm & Hx1 & Hx2).
  destruct (run_success df g1 g2 U p x1 x2 Hdf Hg1 Hg2 Hm Hx1 Hx2)
    as (_ & Hrep & _).
  rewrite Hrep in Hres. injection Hres as <-. cbn [p_value significant].
  split; [exists g1, g2, U; now exists df|].
  destruct (F64.ltb p F64.c0_05); split; split; congruence.
Qed.

Lemma numeric_error (col : Series) (e : exn) :
  numeric col = inl e -> e = TypeError.
Proof. unfold numeric. destruct (mapM to_float col); now intros [= <-]. Qed.

(** C8, as the code has it: when a requested label occurs nowhere in the
    label column, the splitter yields an empty sequence and hands it to
    the test, with no check before the test and no handler around it.
    When the test raises, the run ends with exactly that exception right
    after its first console line, nothing written; when the test returns
    instead, the run does not end with an exception of the test, and a
    result it reports carries the statistic and the p-value returned. *)
Theorem missing_label_reaches_test (df : DataFrame) (labels values : Series) :
  read_excel env excel_path = inr df ->
  df !! group_column = Some labels ->
  df !! value_column = Some values ->
  CStr group1_name ∉ labels \/ CStr group2_name ∉ labels ->
  exists g1 g2,
    extract_group df group_column group1_name value_column = inr g1 /\
    extract_group df group_column group2_name value_column = inr g2 /\
    (g1 = [] \/ g2 = []) /\
    match mannwhitneyu env g1 g2 with
    | inl msg => run = ([reading], inl (StatsError msg))
    | inr (U, p) =>
        (forall msg, outcome run <> inl (StatsError msg)) /\
        (forall res, reported (trace run) = Some res ->
                     u_statistic res = U /\ p_value res = p)
    end.
Proof.
  intros Hdf Hl Hv Habsent.
  pose proof (extract_group_lookup df _ _ group1_name _ _ Hl Hv) as Hg1.
  pose proof (extract_group_lookup df _ _ group2_name _ _ Hl Hv) as Hg2.
  set (g1 := rows_with_label labels values group1_name) in *.
  set (g2 := rows_with_label labels values group2_name) in *.
  assert (Hempty : g1 = [] \/ g2 = []).
  { destruct Habsent as [H|H]; [left|right]; now apply rows_with_label_absent. }
  exists g1, g2. repeat (split; [assumption|]).
  destruct (mannwhitneyu env g1 g2) as [msg|[U p]] eqn:Hm.
  - unfold perform_mannwhitney_analysis.
    rewrite Hdf. cbn [lift mbind M_bind emit].
    rewrite Hg1, Hg2. cbn [lift mbind M_bind emit].
    rewrite Hm. reflexivity.
  - split.
    + intros msg.
      destruct (numeric g1) as [e1|x1] eqn:Hx1.
      { apply numeric_error in Hx1 as He; subst e1.
        unfold perform_mannwhitney_analysis.
        rewrite Hdf. cbn [lift mbind M_bind emit].
        rewrite Hg1, Hg2. cbn [lift mbind M_bind emit].
        rewrite Hm. cbn [lift mbind M_bind emit stats_call].
        rewrite Hx1. discriminate. }
      destruct (numeric g2) as [e2|x2] eqn:Hx2.
      { apply numeric_error in Hx2 as He; subst e2.
        unfold perform_mannwhitney_analysis.
        rewrite Hdf. cbn [lift mbind M_bind emit].
        rewrite Hg1, Hg2. cbn [lift mbind M_bind emit].
        rewrite Hm. cbn [lift mbind M_bind emit stats_call].
        rewrite Hx1, Hx2. discriminate. }
      destruct (run_success df g1 g2 U p x1 x2 Hdf Hg1 Hg2 Hm Hx1 Hx2)
        as (Hout & _).
      rewrite Hout. discriminate.
    + intros res Hres.
      destruct (reported_inv res Hres)
        as (df' & g1' & g2' & U' & p' & x1 & x2
            & Hdf' & Hg1' & Hg2' & Hm' & Hx1 & Hx2).
      destruct (run_success df' g1' g2' U' p' x1 x2 Hdf' Hg1' Hg2' Hm' Hx1 Hx2)
        as (_ & Hrep & _).
      rewrite Hrep in Hres. injection Hres as <-. cbn [u_statistic p_value].
      assert (df' = df) as -> by congruence.
      assert (g1' = g1) as -> by congruence.
      assert (g2' = g2) as -> by congruence.
      rewrite Hm in Hm'. injection Hm' as -> ->. now split.
Qed.

(** C9: a completed run wrote one workbook, named P_results_T.xlsx, and
    one image, named P_plot_T.png, where P is the output prefix and T
    is the clock reading as YYYYMMDD_HHMMSS: four digits of the year,
    two each of month and day, an underscore, two each of hour, minute
    and second, and nothing below the second. *)
Theorem output_filenames :
  outcome run = inr tt ->
  valid_datetime (now env) ->
  exists Y Mo D H Mi S,
    field 4 (year (now env)) Y /\ field 2 (month (now env)) Mo /\
    field 2 (day (now env)) D /\ field 2 (hour (now env)) H /\
    field 2 (minute (now env)) Mi /\ field 2 (second (now env)) S /\
    let T := Y +:+ Mo +:+ D +:+ "_" +:+ H +:+ Mi +:+ S in
    excel_files (trace run) = [output_prefix +:+ "_results_" +:+ T +:+ ".xlsx"] /\
    png_files (trace run) = [output_prefix +:+ "_plot_" +:+ T +:+ ".png"].
Proof.
  intros Hout (Hy & Hmo & Hd & Hh & Hmi & Hs & _).
  destruct (outcome_inv Hout)
    as (df & g1 & g2 & U & p & x1 & x2 & Hdf & Hg1 & Hg2 & Hm & Hx1 & Hx2).
  destruct (run_success df g1 g2 U p x1 x2 Hdf Hg1 Hg2 Hm Hx1 Hx2)
    as (_ & _ & _ & Hxlsx & Hpng).
  exists (decimal 4 (year (now env))), (decimal 2 (month (now env))),
    (decimal 2 (day (now env))), (decimal 2 (hour (now env))),
    (decimal 2 (minute (now env))), (decimal 2 (second (now env))).
  repeat (split; [apply decimal_field; simpl; lia|]).
  split; assumption.
Qed.

End Run.

(** ** The descriptive statistics of a known sample *)

Section KnownSample.

(** C7: for the sample 1, 2, 3, 4, 5 the descriptive statistics are
    exactly: count 5, median 3, mean 3, 25th percentile 2 and 75th
    percentile 4, whether the column holds integers or floats. *)
Theorem descriptive_statistics_one_to_five :
  Forall (fun data =>
            exists xs,
              numeric data = inr xs /\
              median xs = F64.of_Z 3 /\
              mean xs = F64.of_Z 3 /\
              quantile xs F64.c0_25 = F64.of_Z 2 /\
              quantile xs F64.c0_75 = F64.of_Z 4 /\
              describe data xs =
                [ F64.of_Z 5; F64.of_Z 3; F64.of_Z 3; std xs;
                  F64.of_Z 2; F64.of_Z 4 ])
         [one_to_five_ints; one_to_five_floats].
Proof.
  repeat constructor;
    exists (map F64.of_Z one_to_five); repeat split; vm_compute; reflexivity.
Qed.

End KnownSample.

(** ** The theorems on the sample environment *)

Section Samples.

Lemma effect_size_formula_witness :
  exists res g1 g2 U,
    reported (trace sample_run) = Some res /\
    tested sample_env "data.xlsx" "Group" "Value" "Control" "Treatment"
      g1 g2 U (p_value res) /\
    effect_size res =
      F64.abs (F64.div (norm_ppf sample_env (F64.div (p_value res) (F64.of_Z 2)))
                 (F64.sqrt (F64.of_nat (length g1 + length g2)))).
Proof.
  destruct (effect_size_formula sample_env
              "data.xlsx" "Group" "Value" "Control" "Treatment" "mannwhitney"
              _ eq_refl) as (g1 & g2 & U & Ht & He).
  eexists _, g1, g2, U. split; [reflexivity|]. split; [exact Ht | exact He].
Defined.

Lemma significance_flag_witness :
  exists res,
    reported (trace sample_run) = Some res /\
    (significant res = "Yes" <-> F64.ltb (p_value res) F64.c0_05 = true).
Proof.
  destruct (significance_flag sample_env
              "data.xlsx" "Group" "Value" "Control" "Treatment" "mannwhitney"
              _ eq_refl) as (_ & Hyes & _).
  eexists. split; [reflexivity | exact Hyes].
Defined.

Lemma sample_labels_lack_placebo :
  CStr "Placebo" ∉ [CStr "Control"; CStr "Treatment"; CStr "Control"; CInt 3].
Proof.
  intros Hin.
  repeat (apply elem_of_cons in Hin as [Hin|Hin]; [discriminate|]).
  now apply elem_of_nil in Hin.
Defined.

(** The theorem where the test raises for an empty sample. *)
Lemma missing_label_reaches_test_witness :
  sample_run_missing =
    ([Console [Text "Reading data from "; Text "data.xlsx"; Text "..."]],
     inl (StatsError "`x` and `y` must be of nonzero size.")).
Proof.
  destruct (missing_label_reaches_test sample_env
              "data.xlsx" "Group" "Value" "Control" "Placebo" "mannwhitney"
              sample_frame
              [CStr "Control"; CStr "Treatment"; CStr "Control"; CInt 3]
              [CInt 1; CInt 2; CNum F64.nan; CInt 9]
              eq_refl eq_refl eq_refl (or_intror sample_labels_lack_placebo))
    as (g1 & g2 & Hg1 & Hg2 & _ & Hrun).
  injection Hg1 as <-. injection Hg2 as <-. exact Hrun.
Defined.

(** Where the test answers an empty sample with NaN, a run asked for a
    label the column does not have extracts an empty sample and does not
    end with an exception: it completes and reports a NaN p-value as not
    significant. *)
Lemma missing_label_counterexample :
  (CStr "Placebo" ∉ [CStr "Control"; CStr "Treatment"; CStr "Control"; CInt 3]) /\
  extract_group sample_frame "Group" "Placebo" "Value" = inr [] /\
  outcome lenient_run_missing = inr tt /\
  exists res,
    reported (trace lenient_run_missing) = Some res /\
    F64.is_nan (p_value res) = true /\ significant res = "No".
Proof.
  split; [exact sample_labels_lack_placebo|].
  split; [reflexivity|]. split; [reflexivity|].
  eexists. split; [reflexivity|]. split; reflexivity.
Qed.

Lemma sample_clock_valid : valid_datetime sample_clock.
Proof. unfold valid_datetime, sample_clock; simpl; lia. Defined.

Lemma output_filenames_witness :
  exists Y Mo D H Mi S,
    field 4 2026 Y /\ field 2 11 Mo /\ field 2 4 D /\
    field 2 9 H /\ field 2 5 Mi /\ field 2 0 S /\
    excel_files (trace sample_run)
      = ["mannwhitney" +:+ "_results_" +:+
         (Y +:+ Mo +:+ D +:+ "_" +:+ H +:+ Mi +:+ S) +:+ ".xlsx"] /\
    png_files (trace sample_run)
      = ["mannwhitney" +:+ "_plot_" +:+
         (Y +:+ Mo +:+ D +:+ "_" +:+ H +:+ Mi +:+ S) +:+ ".png"].
Proof.
  destruct (output_filenames sample_env
              "data.xlsx" "Group" "Value" "Control" "Treatment" "mannwhitney"
              eq_refl sample_clock_valid)
    as (Y & Mo & D & H & Mi & S & HY & HMo & HD & HH & HMi & HS & Hx & Hp).
  exists Y, Mo, D, H, Mi, S. repeat (split; [assumption|]). assumption.
Defined.

End Samples.

(** ** More on the splitter *)

Section SplitterRows.

Lemma cell_eq_true (c : cell) (name : string) :
  cell_eq c name = true <-> c = CStr name.
Proof.
  destruct c as [s | z | x]; simpl; split; try discriminate.
  - intros H. apply bool_decide_eq_true_1 in H. now subst.
  - intros [= ->]. now apply bool_decide_eq_true_2.
Qed.

Lemma rows_with_label_cons (l v : cell) (labels values : Series) (name : string) :
  rows_with_label (l :: labels) (v :: values) name =
    if cell_eq l name then v :: rows_with_label labels values name
    else rows_with_label labels values name.
Proof. unfold rows_with_label. simpl. now destruct (cell_eq l name). Qed.

Lemma rows_with_label_nil_r (labels : Series) (name : string) :
  rows_with_label labels [] name = [].
Proof. now destruct labels. Qed.

Lemma rows_with_label_sublist (labels values : Series) (name : string) :
  rows_with_label labels values name `sublist_of` values.
Proof.
  revert values; induction labels as [|l labels IH]; intros [|v values];
    try (apply sublist_nil_l).
  rewrite rows_with_label_cons. destruct (cell_eq l name).
  - now apply sublist_skip.
  - now apply sublist_cons.
Qed.

Lemma rows_with_label_length (labels values : Series) (name : string) :
  (length (rows_with_label labels values name) <= length labels)%nat.
Proof.
  revert values; induction labels as [|l labels IH]; intros [|v values];
    try (simpl; lia).
  rewrite rows_with_label_cons. specialize (IH values).
  destruct (cell_eq l name); simpl; lia.
Qed.

Lemma rows_with_label_elem (labels values : Series) (name : string) (x : cell) :
  x ∈ rows_with_label labels values name <->
  exists i : nat, labels !! i = Some (CStr name) /\ values !! i = Some x.
Proof.
  revert values; induction labels as [|l labels IH]; intros [|v values].
  - split; [intros H; now apply elem_of_nil in H | intros (i & H & _); discriminate].
  - split; [intros H; now apply elem_of_nil in H | intros (i & H & _); discriminate].
  - rewrite rows_with_label_nil_r.
    split; [intros H; now apply elem_of_nil in H | intros (i & _ & H); discriminate].
  - rewrite rows_with_label_cons.
    destruct (cell_eq l name) eqn:Hl.
    + apply cell_eq_true in Hl as ->. rewrite elem_of_cons, IH. split.
      * intros [-> | (i & Hi & Hx)]; [now exists 0%nat | now exists (S i)].
      * intros ([|i] & Hi & Hx); [left; simpl in Hx; congruence | right; now exists i].
    + rewrite IH. split.
      * intros (i & Hi & Hx). now exists (S i).
      * intros ([|i] & Hi & Hx); [|now exists i].
        simpl in Hi. injection Hi as ->.
        rewrite (proj2 (cell_eq_true _ _) eq_refl) in Hl. discriminate.
Qed.

(** X1: the only exceptions of the splitter are key errors, the label
    column first: a frame without the label column gives [KeyError] of its
    name, whatever the value column is; with the label column present, a
    missing value column gives [KeyError] of that name. *)
Theorem extract_group_key_errors (df : DataFrame)
    (group_column name value_column : string) (e : exn) :
  extract_group df group_column name value_column = inl e <->
  (df !! group_column = None /\ e = KeyError group_column) \/
  (is_Some (df !! group_column) /\ df !! value_column = None /\
   e = KeyError value_column).
Proof.
  unfold extract_group, getitem, getitem_mask.
  destruct (df !! group_column) as [labels|] eqn:Hl.
  - rewrite lookup_fmap.
    destruct (df !! value_column) as [values|] eqn:Hv; simpl; split.
    + discriminate.
    + intros [[? _] | (_ & ? & _)]; discriminate.
    + intros [= <-]. right. eauto.
    + intros [[? _] | (_ & _ & ->)]; [discriminate | reflexivity].
  - split.
    + intros [= <-]. now left.
    + intros [[_ ->] | ([? ?] & _)]; [reflexivity | discriminate].
Qed.

(** X2: an extracted sample is a subsequence of the value column, and a
    value belongs to it exactly when it stands in a row whose label is
    the target string itself; a numeric label is never selected. *)
Theorem extract_group_rows (df : DataFrame)
    (group_column name value_column : string) (g : Series) :
  extract_group df group_column name value_column = inr g ->
  exists labels values,
    df !! group_column = Some labels /\ df !! value_column = Some values /\
    g `sublist_of` values /\
    (length g <= length labels)%nat /\
    forall x, x ∈ g <->
      exists i : nat, labels !! i = Some (CStr name) /\ values !! i = Some x.
Proof.
  intros Hg. destruct (extract_group_inv _ _ _ _ _ Hg)
    as (labels & values & Hl & Hv & ->).
  exists labels, values. repeat split; try assumption.
  - apply rows_with_label_sublist.
  - apply rows_with_label_length.
  - apply rows_with_label_elem.
  - apply rows_with_label_elem.
Qed.

Lemma extract_group_rows_witness :
  exists labels values,
    sample_frame !! "Group" = Some labels /\
    sample_frame !! "Value" = Some values /\
    [CInt 2] `sublist_of` values /\
    forall x, x ∈ [CInt 2] <->
      exists i : nat, labels !! i = Some (CStr "Treatment") /\ values !! i = Some x.
Proof.
  destruct (extract_group_rows sample_frame "Group" "Treatment" "Value"
              [CInt 2] eq_refl)
    as (labels & values & Hl & Hv & Hsub & _ & Hrows).
  exists labels, values. repeat split; try assumption; apply Hrows.
Defined.

Lemma rows_with_label_two (labels values : Series) (name1 name2 : string) :
  name1 <> name2 ->
  (length (rows_with_label labels values name1) +
   length (rows_with_label labels values name2) <= length values)%nat.
Proof.
  intros Hne.
  revert values; induction labels as [|l labels IH]; intros [|v values];
    try (simpl; lia).
  rewrite !rows_with_label_cons. specialize (IH values).
  destruct (cell_eq l name1) eqn:H1, (cell_eq l name2) eqn:H2; simpl; try lia.
  apply cell_eq_true in H1, H2. congruence.
Qed.

(** X3: for two different target strings the two samples never count a
    row twice: their sizes add up to at most the number of values. *)
Theorem groups_share_no_row (df : DataFrame)
    (group_column value_column group1_name group2_name : string)
    (values g1 g2 : Series) :
  group1_name <> group2_name ->
  df !! value_column = Some values ->
  extract_group df group_column group1_name value_column = inr g1 ->
  extract_group df group_column group2_name value_column = inr g2 ->
  (length g1 + length g2 <= length values)%nat.
Proof.
  intros Hne Hv Hg1 Hg2.
  destruct (extract_group_inv _ _ _ _ _ Hg1) as (labels & values1 & Hl & Hv1 & ->).
  destruct (extract_group_inv _ _ _ _ _ Hg2) as (labels2 & values2 & Hl2 & Hv2 & ->).
  assert (labels2 = labels) as -> by congruence.
  assert (values1 = values) as -> by congruence.
  assert (values2 = values) as -> by congruence.
  now apply rows_with_label_two.
Qed.

Lemma groups_share_no_row_witness :
  (length [CInt 1; CNum F64.nan] + length [CInt 2] <= 4)%nat.
Proof.
  apply (groups_share_no_row sample_frame "Group" "Value" "Control" "Treatment"
           [CInt 1; CInt 2; CNum F64.nan; CInt 9] [CInt 1; CNum F64.nan] [CInt 2]);
    [discriminate | reflexivity | reflexivity | reflexivity].
Defined.

(** X4: when every row carries one of the two (different) target strings,
    every value goes to exactly one sample: the two samples together are
    a rearrangement of the value column. *)
Theorem groups_cover_rows (df : DataFrame)
    (group_column value_column group1_name group2_name : string)
    (labels values : Series) :
  df !! group_column = Some labels ->
  df !! value_column = Some values ->
  length labels = length values ->
  group1_name <> group2_name ->
  Forall (fun l => l = CStr group1_name \/ l = CStr group2_name) labels ->
  exists g1 g2,
    extract_group df group_column group1_name value_column = inr g1 /\
    extract_group df group_column group2_name value_column = inr g2 /\
    g1 ++ g2 ≡ₚ values.
Proof.
  intros Hl Hv Hlen Hne Hall.
  exists (rows_with_label labels values group1_name),
    (rows_with_label labels values group2_name).
  split; [now apply extract_group_lookup|].
  split; [now apply extract_group_lookup|].
  clear Hl Hv df.
  revert values Hlen; induction Hall as [|l labels Hl Hall IH];
    intros [|v values] Hlen; try discriminate; [reflexivity|].
  rewrite !rows_with_label_cons. injection Hlen as Hlen.
  specialize (IH values Hlen).
  destruct Hl as [-> | ->]; simpl.
  - rewrite bool_decide_eq_true_2 by reflexivity.
    rewrite bool_decide_eq_false_2 by congruence.
    simpl. now rewrite IH.
  - rewrite bool_decide_eq_false_2 by congruence.
    rewrite bool_decide_eq_true_2 by reflexivity.
    rewrite <- Permutation_middle. now rewrite IH.
Qed.

Lemma groups_cover_rows_witness :
  exists g1 g2,
    extract_group trial_frame "Group" "Control" "Value" = inr g1 /\
    extract_group trial_frame "Group" "Treatment" "Value" = inr g2 /\
    g1 ++ g2 ≡ₚ trial_values.
Proof.
  apply (groups_cover_rows trial_frame "Group" "Value" "Control" "Treatment"
           trial_labels trial_values);
    [reflexivity | reflexivity | reflexivity | discriminate |].
  unfold trial_labels. simpl.
  repeat (apply Forall_cons_2; [auto|]). apply Forall_nil_2.
Defined.

End SplitterRows.

(** ** Where a run stops *)

Section RunEnds.

Context (env : Env).
Context (excel_path group_column value_column : string).
Context (group1_name group2_name output_prefix : string).

Local Abbreviation run :=
  (perform_mannwhitney_analysis env excel_path group_column value_column
     group1_name group2_name output_prefix).

Local Abbreviation reading :=
  (Console [Text "Reading data from "; Text excel_path; Text "..."]).

Local Abbreviation fails :=
  (failure env excel_path group_column value_column group1_name group2_name).

Local Ltac enter :=
  unfold perform_mannwhitney_analysis;
  repeat match goal with
         | H : _ = _ |- _ =>
             rewrite H; cbn [lift mbind M_bind emit stats_call]
         end.

(** X6: when the reader, the extraction of the first or of the second
    sample, the test, or a numeric reduction raises, the run ends with
    that exception, unchanged (the message of the test inside
    [StatsError]): it has printed its first line only and written no
    file, and no later stage is entered. *)
Theorem stage_failure_ends_run (e : exn) :
  fails e -> run = ([reading], inl e).
Proof.
  intros Hf. destruct Hf; now enter.
Qed.

End RunEnds.

(** ** What a completed run reports *)

Section RunReports.

Context (env : Env).
Context (excel_path group_column value_column : string).
Context (group1_name group2_name output_prefix : string).

Local Abbreviation run :=
  (perform_mannwhitney_analysis env excel_path group_column value_column
     group1_name group2_name output_prefix).

Local Ltac stages Hres :=
  let df := fresh "df" in
  let g1 := fresh "g1" in
  let g2 := fresh "g2" in
  let U := fresh "U" in
  let p := fresh "p" in
  let x1 := fresh "x1" in
  let x2 := fresh "x2" in
  destruct (reported_inv env excel_path group_column value_column
              group1_name group2_name output_prefix _ Hres)
    as (df & g1 & g2 & U & p & x1 & x2 & Hdf & Hg1 & Hg2 & Hm & Hx1 & Hx2);
  destruct (run_success env excel_path group_column value_column
              group1_name group2_name output_prefix
              df g1 g2 U p x1 x2 Hdf Hg1 Hg2 Hm Hx1 Hx2)
    as (Hout & Hrep & Hstats & Hxlsx & Hpng);
  rewrite Hrep in Hres; injection Hres as <-.

Lemma abs_not_below_zero (x : float) :
  F64.ltb (F64.abs x) (F64.of_Z 0) = false /\ F64.abs (F64.abs x) = F64.abs x.
Proof. now destruct x. Qed.

Lemma div_nan_l (y : float) : F64.div S754_nan y = S754_nan.
Proof. reflexivity. Qed.

(** X9: the effect size a run reports is never below zero (it is an
    absolute value, possibly NaN), and the label reported with it is the
    label of that very number. *)
Theorem effect_size_not_negative (res : results) :
  reported (trace run) = Some res ->
  F64.ltb (effect_size res) (F64.of_Z 0) = false /\
  F64.abs (effect_size res) = effect_size res /\
  effect_size_interpretation res = interpret_effect_size (effect_size res).
Proof.
  intros Hres. stages Hres. cbn [effect_size effect_size_interpretation].
  split; [apply abs_not_below_zero|]. split; [apply abs_not_below_zero|].
  reflexivity.
Qed.

(** X10: when the test answers with a NaN p-value and the inverse normal
    distribution function returns NaN for NaN, the run still reports: the
    significance entry is "No", the effect size is NaN and its label is
    "Large effect". *)
Theorem nan_p_value_report (res : results) :
  reported (trace run) = Some res ->
  F64.is_nan (p_value res) = true ->
  norm_ppf env F64.nan = F64.nan ->
  significant res = "No" /\
  effect_size res = F64.nan /\
  effect_size_interpretation res = "Large effect".
Proof.
  intros Hres Hnan Hppf. stages Hres.
  cbn [p_value significant effect_size effect_size_interpretation] in *.
  destruct p; try discriminate.
  unfold F64.nan in *. rewrite div_nan_l, Hppf, div_nan_l. repeat split.
Qed.

Local Ltac replay Hl Hv :=
  unfold perform_mannwhitney_analysis;
  repeat match goal with
         | H : _ = _ |- _ =>
             rewrite H; cbn [lift mbind M_bind emit stats_call]
         end;
  unfold getitem; rewrite Hl, Hv; cbn [lift mbind M_bind emit].

(** X11: a run that wrote its workbook and its image made exactly twelve
    [print] calls, in this order: the first message, one naming the
    workbook written and one naming the image, then the heading, the
    rule, the statistic, the p-value, the effect size, its label and the
    significance entry as they stand in the workbook, the second heading
    and the descriptive table of the workbook. *)
Theorem console_transcript (res : results) (tbl : table) (xlsx png : string) :
  reported (trace run) = Some res ->
  reported_stats (trace run) = Some tbl ->
  excel_files (trace run) = [xlsx] ->
  png_files (trace run) = [png] ->
  console (trace run) =
    [ [Text "Reading data from "; Text excel_path; Text "..."];
      [Text newline; Text "Results saved to:"; Text " "; Text xlsx];
      [Text "Plot saved to:"; Text " "; Text png];
      [Text newline; Text "Mann-Whitney U Test Results:"];
      [Text "--------------------------"];
      [Text "U-statistic: "; Fixed4 (u_statistic res)];
      [Text "p-value: "; Fixed4 (p_value res)];
      [Text "Effect size (r): "; Fixed4 (effect_size res)];
      [Text "Effect size interpretation: "; Text (effect_size_interpretation res)];
      [Text "Significant difference: "; Text (significant res)];
      [Text newline; Text "Descriptive Statistics:"];
      [Frame tbl] ].
Proof.
  intros Hres Htbl Hx Hp. stages Hres.
  rewrite Hstats in Htbl. injection Htbl as <-.
  rewrite Hxlsx in Hx. injection Hx as <-.
  rewrite Hpng in Hp. injection Hp as <-.
  destruct (extract_group_inv _ _ _ _ _ Hg1) as (labels & values & Hl & Hv & _).
  clear Hout Hrep Hstats Hxlsx Hpng.
  replay Hl Hv. reflexivity.
Qed.


Lemma dict_get_set (k : string) (v : column) (d : table) :
  dict_get k (dict_set k v d) = Some v.
Proof.
  induction d as [|[k' v'] d IH]; simpl.
  - now rewrite bool_decide_eq_true_2.
  - destruct (bool_decide (k' = k)) eqn:Hk; simpl; rewrite ?Hk; [|assumption].
    now rewrite bool_decide_eq_true_2.
Qed.

Lemma dict_get_set_ne (k k' : string) (v : column) (d : table) :
  k <> k' -> dict_get k' (dict_set k v d) = dict_get k' d.
Proof.
  intros Hne. induction d as [|[k0 v0] d IH]; simpl.
  - now rewrite bool_decide_eq_false_2.
  - destruct (bool_decide (k0 = k)) eqn:Hk; simpl.
    + apply bool_decide_eq_true_1 in Hk as ->.
      now rewrite !bool_decide_eq_false_2.
    + now rewrite IH.
Qed.

(** X13: in a completed run the two medians of the summary sheet are the
    entries of the "Median" row of the descriptive table under the two
    group names, also when the two names coincide or one of them is
    "Statistic". *)
Theorem medians_agree (res : results) (tbl : table) :
  reported (trace run) = Some res ->
  reported_stats (trace run) = Some tbl ->
  exists col1 col2,
    dict_get group1_name tbl = Some (NumCol col1) /\
    col1 !! 1%nat = Some (group_1_median res) /\
    dict_get group2_name tbl = Some (NumCol col2) /\
    col2 !! 1%nat = Some (group_2_median res).
Proof.
  intros Hres Htbl. stages Hres.
  rewrite Hstats in Htbl. injection Htbl as <-.
  cbn [group_1_median group_2_median]. unfold desc_stats.
  destruct (decide (group1_name = group2_name)) as [Heq | Hne].
  - assert (g1 = g2) as -> by congruence.
    assert (x1 = x2) as -> by congruence.
    rewrite <- Heq. exists (describe g2 x2), (describe g2 x2).
    rewrite dict_get_set. now repeat split.
  - exists (describe g1 x1), (describe g2 x2).
    rewrite dict_get_set_ne, !dict_get_set by congruence. now repeat split.
Qed.

Lemma strftime_length (t : datetime) : String.length (strftime t) = 15%nat.
Proof.
  unfold strftime. now rewrite !length_app, !decimal_length.
Qed.

(** X14: for a clock reading of [valid_datetime], a completed run
    writes its workbook and its image under two different names, for
    every prefix: the first is 29 characters longer than the prefix, the
    second 25. *)
Theorem output_names_differ :
  valid_datetime (now env) ->
  outcome run = inr tt ->
  exists xlsx png,
    excel_files (trace run) = [xlsx] /\ png_files (trace run) = [png] /\
    String.length xlsx = (String.length output_prefix + 29)%nat /\
    String.length png = (String.length output_prefix + 25)%nat /\
    xlsx <> png.
Proof.
  intros _ Hout.
  destruct (outcome_inv env excel_path group_column value_column
              group1_name group2_name output_prefix Hout)
    as (df & g1 & g2 & U & p & x1 & x2 & Hdf & Hg1 & Hg2 & Hm & Hx1 & Hx2).
  destruct (run_success env excel_path group_column value_column
              group1_name group2_name output_prefix
              df g1 g2 U p x1 x2 Hdf Hg1 Hg2 Hm Hx1 Hx2)
    as (_ & _ & _ & Hxlsx & Hpng).
  eexists _, _. split; [exact Hxlsx|]. split; [exact Hpng|].
  assert (Hlx : String.length
                  (output_prefix +:+ "_results_" +:+ strftime (now env) +:+ ".xlsx")
                = (String.length output_prefix + 29)%nat).
  { rewrite !length_app, strftime_length. simpl. lia. }
  assert (Hlp : String.length
                  (output_prefix +:+ "_plot_" +:+ strftime (now env) +:+ ".png")
                = (String.length output_prefix + 25)%nat).
  { rewrite !length_app, strftime_length. simpl. lia. }
  split; [exact Hlx|]. split; [exact Hlp|].
  intros Heq. rewrite Heq in Hlx. lia.
Qed.




End RunReports.

(** ** The order of the labels *)

Section Monotone.

Lemma ltb_leb_trans (mc : positive) (ec : Z) (r1 r2 : float) :
  F64.leb r1 r2 = true ->
  F64.ltb r2 (S754_finite false mc ec) = true ->
  F64.ltb r1 (S754_finite false mc ec) = true.
Proof.
  destruct r1 as [s1 | s1 | | s1 m1 e1], r2 as [s2 | s2 | | s2 m2 e2];
    cbv [F64.leb F64.ltb SFleb SFltb SFcompare];
    try destruct s1; try destruct s2; try discriminate; try reflexivity;
    change (Pos.compare_cont Eq) with Pos.compare;
    repeat match goal with
           | |- context [(?a ?= ?b)%Z] => destruct (Z.compare_spec a b)
           | |- context [(?a ?= ?b)%positive] => destruct (Pos.compare_spec a b)
           end; simpl; try discriminate; try reflexivity; try lia.
Qed.

(** X15: a larger effect size never gets a weaker label: when r1 <= r2,
    the label of r1 is at most as strong as the label of r2, in the order
    negligible, small, medium, large. *)
Theorem interpret_effect_size_monotone (r1 r2 : float) :
  F64.leb r1 r2 = true ->
  (strength (interpret_effect_size r1) <= strength (interpret_effect_size r2))%nat.
Proof.
  intros Hle.
  assert (H10 : F64.ltb r2 F64.c0_10 = true -> F64.ltb r1 F64.c0_10 = true)
    by apply (ltb_leb_trans _ _ r1 r2 Hle).
  assert (H30 : F64.ltb r2 F64.c0_30 = true -> F64.ltb r1 F64.c0_30 = true)
    by apply (ltb_leb_trans _ _ r1 r2 Hle).
  assert (H50 : F64.ltb r2 F64.c0_50 = true -> F64.ltb r1 F64.c0_50 = true)
    by apply (ltb_leb_trans _ _ r1 r2 Hle).
  unfold interpret_effect_size.
  destruct (F64.ltb r2 F64.c0_10);
    [rewrite (H10 eq_refl); reflexivity|].
  destruct (F64.ltb r2 F64.c0_30).
  { rewrite (H30 eq_refl). destruct (F64.ltb r1 F64.c0_10); vm_compute; lia. }
  destruct (F64.ltb r2 F64.c0_50).
  { rewrite (H50 eq_refl).
    destruct (F64.ltb r1 F64.c0_10), (F64.ltb r1 F64.c0_30); vm_compute; lia. }
  destruct (F64.ltb r1 F64.c0_10), (F64.ltb r1 F64.c0_30),
    (F64.ltb r1 F64.c0_50); vm_compute; lia.
Qed.

Lemma interpret_effect_size_monotone_witness :
  F64.leb F64.c0_10 F64.c0_50 = true /\
  (strength (interpret_effect_size F64.c0_10)
   <= strength (interpret_effect_size F64.c0_50))%nat.
Proof.
  split; [reflexivity|].
  apply (interpret_effect_size_monotone F64.c0_10 F64.c0_50). reflexivity.
Defined.

End Monotone.

(** ** Timestamps and file names *)

Section Collisions.

Lemma app_inj_length (s1 s2 t1 t2 : string) :
  String.length s1 = String.length s2 ->
  s1 +:+ t1 = s2 +:+ t2 -> s1 = s2 /\ t1 = t2.
Proof.
  revert s2; induction s1 as [|c s1 IH]; intros [|c' s2] Hlen Heq;
    try discriminate.
  - now split.
  - rewrite !app_cons in Heq. injection Heq as -> Heq.
    injection Hlen as Hlen. destruct (IH s2 Hlen Heq) as [-> ->]. now split.
Qed.

Lemma decimal_inj (w : nat) (n1 n2 : Z) :
  0 <= n1 < 10 ^ Z.of_nat w -> 0 <= n2 < 10 ^ Z.of_nat w ->
  decimal w n1 = decimal w n2 -> n1 = n2.
Proof.
  intros H1 H2 Heq.
  pose proof (parse_decimal_decimal w n1 0 H1) as P1.
  pose proof (parse_decimal_decimal w n2 0 H2) as P2.
  rewrite Heq in P1. lia.
Qed.

(** X16: two clock readings give the same timestamp exactly when they
    agree in year, month, day, hour, minute and second; the microseconds
    play no part.  So two runs with one prefix write to the same files
    exactly when they start within the same second. *)
Theorem timestamps_collide_iff (t1 t2 : datetime) :
  valid_datetime t1 -> valid_datetime t2 ->
  (strftime t1 = strftime t2 <->
   year t1 = year t2 /\ month t1 = month t2 /\ day t1 = day t2 /\
   hour t1 = hour t2 /\ minute t1 = minute t2 /\ second t1 = second t2).
Proof.
  intros (Hy1 & Hmo1 & Hd1 & Hh1 & Hmi1 & Hs1 & _)
         (Hy2 & Hmo2 & Hd2 & Hh2 & Hmi2 & Hs2 & _).
  split.
  - unfold strftime. intros Heq.
    apply app_inj_length in Heq as [Hy Heq]; [|now rewrite !decimal_length].
    apply app_inj_length in Heq as [Hmo Heq]; [|now rewrite !decimal_length].
    apply app_inj_length in Heq as [Hd Heq]; [|now rewrite !decimal_length].
    apply app_inj_length in Heq as [_ Heq]; [|reflexivity].
    apply app_inj_length in Heq as [Hh Heq]; [|now rewrite !decimal_length].
    apply app_inj_length in Heq as [Hmi Hs]; [|now rewrite !decimal_length].
    repeat split; (eapply decimal_inj; [| |eassumption]; simpl; lia).
  - intros (Hy & Hmo & Hd & Hh & Hmi & Hs). unfold strftime.
    now rewrite Hy, Hmo, Hd, Hh, Hmi, Hs.
Qed.

Lemma later_clock_valid : valid_datetime later_clock.
Proof. unfold valid_datetime, later_clock; simpl; lia. Defined.

Lemma timestamps_collide_iff_witness :
  strftime sample_clock = strftime later_clock.
Proof.
  apply (timestamps_collide_iff sample_clock later_clock).
  - unfold valid_datetime, sample_clock; simpl; lia.
  - exact later_clock_valid.
  - repeat split.
Defined.

End Collisions.

(** ** The descriptive table *)

Section DescriptiveTable.

Lemma dict_set_keys (k : string) (v : column) (d : table) :
  map fst (dict_set k v d) =
    if bool_decide (k ∈ map fst d) then map fst d else map fst d ++ [k].
Proof.
  induction d as [|[k' v'] d IH]; [reflexivity|]. simpl.
  destruct (bool_decide (k' = k)) eqn:Hk; simpl.
  - apply bool_decide_eq_true_1 in Hk as ->.
    rewrite bool_decide_eq_true_2 by apply list_elem_of_here. reflexivity.
  - apply bool_decide_eq_false_1 in Hk. rewrite IH.
    destruct (bool_decide (k ∈ map fst d)) eqn:Hin.
    + apply bool_decide_eq_true_1 in Hin.
      rewrite bool_decide_eq_true_2 by now apply list_elem_of_further.
      reflexivity.
    + apply bool_decide_eq_false_1 in Hin.
      rewrite bool_decide_eq_false_2; [reflexivity|].
      intros [?|?]%elem_of_cons; congruence.
Qed.

Lemma dict_set_NoDup (k : string) (v : column) (d : table) :
  NoDup (map fst d) -> NoDup (map fst (dict_set k v d)).
Proof.
  intros Hd. rewrite dict_set_keys.
  destruct (bool_decide (k ∈ map fst d)) eqn:Hin; [assumption|].
  apply bool_decide_eq_false_1 in Hin.
  apply NoDup_app. repeat split; [assumption | | apply NoDup_singleton].
  intros x Hx Hk. apply list_elem_of_singleton in Hk as ->. contradiction.
Qed.

(** X17: the descriptive table never has two columns of one name.  With
    three different names it has the columns "Statistic", first group,
    second group, in this order; when the two group names coincide the
    first group's column is replaced by the second group's; a group
    named "Statistic" replaces the column of the row names. *)
Theorem desc_stats_columns (group1_name group2_name : string)
    (d1 d2 : Series) (x1 x2 : list float) :
  let t := desc_stats group1_name group2_name d1 d2 x1 x2 in
  NoDup (map fst t) /\
  dict_get group2_name t = Some (NumCol (describe d2 x2)) /\
  (group1_name <> "Statistic" -> group2_name <> "Statistic" ->
   group1_name <> group2_name ->
   t = [ ("Statistic", StrCol statistic_names);
         (group1_name, NumCol (describe d1 x1));
         (group2_name, NumCol (describe d2 x2)) ]) /\
  (group1_name <> "Statistic" -> group1_name = group2_name ->
   t = [ ("Statistic", StrCol statistic_names);
         (group2_name, NumCol (describe d2 x2)) ]) /\
  (group1_name = "Statistic" \/ group2_name = "Statistic" ->
   exists col, dict_get "Statistic" t = Some (NumCol col)).
Proof.
  intros t. subst t. unfold desc_stats. repeat split.
  - do 3 apply dict_set_NoDup. apply NoDup_nil_2.
  - apply dict_get_set.
  - intros H1 H2 H12. simpl.
    rewrite (bool_decide_eq_false_2 ("Statistic" = group1_name)) by congruence.
    simpl.
    rewrite (bool_decide_eq_false_2 ("Statistic" = group2_name)) by congruence.
    now rewrite (bool_decide_eq_false_2 (group1_name = group2_name)).
  - intros H1 <-. simpl.
    rewrite (bool_decide_eq_false_2 ("Statistic" = group1_name)) by congruence.
    simpl.
    rewrite (bool_decide_eq_false_2 ("Statistic" = group1_name)) by congruence.
    now rewrite (bool_decide_eq_true_2 (group1_name = group1_name)).
  - intros [-> | ->].
    + destruct (decide ("Statistic" = group2_name)) as [<- | Hne].
      * eexists. apply dict_get_set.
      * eexists. rewrite dict_get_set_ne by congruence. apply dict_get_set.
    + eexists. apply dict_get_set.
Qed.

End DescriptiveTable.

(** ** The further theorems on the sample environments *)

Section MoreSamples.

Lemma effect_size_not_negative_witness :
  exists res,
    reported (trace sample_run) = Some res /\
    F64.ltb (effect_size res) (F64.of_Z 0) = false.
Proof.
  destruct (effect_size_not_negative sample_env
              "data.xlsx" "Group" "Value" "Control" "Treatment" "mannwhitney"
              _ eq_refl) as (Hneg & _).
  eexists. split; [reflexivity | exact Hneg].
Defined.

Lemma nan_p_value_report_witness :
  exists res,
    reported (trace (main nan_env)) = Some res /\
    significant res = "No" /\
    effect_size_interpretation res = "Large effect".
Proof.
  destruct (nan_p_value_report nan_env
              "data.xlsx" "Group" "Value" "Control" "Treatment" "mannwhitney"
              _ eq_refl eq_refl eq_refl) as (Hsig & _ & Hlabel).
  eexists. split; [reflexivity | split; [exact Hsig | exact Hlabel]].
Defined.

Lemma console_transcript_witness :
  length (console (trace sample_run)) = 12%nat.
Proof.
  unfold sample_run, main.
  rewrite (console_transcript sample_env
             "data.xlsx" "Group" "Value" "Control" "Treatment" "mannwhitney"
             _ _ _ _ eq_refl eq_refl eq_refl eq_refl).
  reflexivity.
Defined.


Lemma medians_agree_witness :
  exists res tbl col1 col2,
    reported (trace sample_run) = Some res /\
    dict_get "Control" tbl = Some (NumCol col1) /\
    col1 !! 1%nat = Some (group_1_median res) /\
    dict_get "Treatment" tbl = Some (NumCol col2) /\
    col2 !! 1%nat = Some (group_2_median res).
Proof.
  destruct (medians_agree sample_env
              "data.xlsx" "Group" "Value" "Control" "Treatment" "mannwhitney"
              _ _ eq_refl eq_refl) as (col1 & col2 & H1 & H2 & H3 & H4).
  eexists _, _, col1, col2. split; [reflexivity|].
  split; [exact H1 | split; [exact H2 | split; [exact H3 | exact H4]]].
Defined.

Lemma output_names_differ_witness :
  exists xlsx png,
    excel_files (trace sample_run) = [xlsx] /\
    png_files (trace sample_run) = [png] /\ xlsx <> png.
Proof.
  destruct (output_names_differ sample_env
              "data.xlsx" "Group" "Value" "Control" "Treatment" "mannwhitney"
              sample_clock_valid eq_refl)
    as (xlsx & png & Hx & Hp & _ & _ & Hne).
  exists xlsx, png. split; [exact Hx | split; [exact Hp | exact Hne]].
Defined.

(** A sheet without the column asked for: the first extraction raises. *)
Lemma stage_failure_ends_run_witness :
  perform_mannwhitney_analysis sample_env
    "data.xlsx" "Label" "Value" "Control" "Treatment" "mannwhitney"
  = ([Console [Text "Reading data from "; Text "data.xlsx"; Text "..."]],
     inl (KeyError "Label")).
Proof.
  apply (stage_failure_ends_run sample_env
           "data.xlsx" "Label" "Value" "Control" "Treatment" "mannwhitney").
  apply (fail_group1 _ _ _ _ _ _ sample_frame); reflexivity.
Defined.


End MoreSamples.
